(** * Steam review scraper ([tes.py]): identifier extraction, windowed
      fetching, monthly sampling and monthly aggregation.

    The development follows the four functions of [tes.py]:
    [get_appid_from_url], [fetch_reviews], [monthly_sample] and
    [monthly_summary].  Integers are [Z], strings are [string], a data frame
    is the list of its rows in positional order, and what the program obtains
    from outside (the HTTP feed, the pseudo-random generator, the data-frame
    sampler) is passed in explicitly. *)

From Stdlib Require Import ZArith QArith List String Ascii Bool Lia Permutation Sorted.
Import ListNotations.

Local Open Scope string_scope.
Local Open Scope list_scope.
Local Open Scope Z_scope.

(* ================================================================== *)
(** * Part I: definitions *)
(* ================================================================== *)

(** ** Exceptions and fallible results *)

(** [ValueError] is raised at line 13 and by [int] on a malformed literal;
    [KeyError] by a column lookup on a frame that lacks the column;
    [HTTPError] by [raise_for_status] (line 42) on a failed request. *)
Inductive exn : Type :=
| ValueError (msg : string)
| KeyError (key : string)
| HTTPError.

Inductive result (A : Type) : Type :=
| Ok (a : A)
| Raise (e : exn).
Arguments Ok {A} a.
Arguments Raise {A} e.

(** ** [get_appid_from_url] (lines 6-13) *)

(** [str.split(sep)] for a one-character separator: the pieces between the
    separators, empty pieces included; never the empty list. *)
Fixpoint split (sep : ascii) (s : string) : list string :=
  match s with
  | EmptyString => [EmptyString]
  | String c rest =>
      if Ascii.eqb c sep then EmptyString :: split sep rest
      else match split sep rest with
           | [] => [String c EmptyString]
           | p :: ps => String c p :: ps
           end
  end.

(** Truth value of a string: non-empty. *)
Definition truthy (p : string) : bool :=
  match p with EmptyString => false | String _ _ => true end.

(** Line 9: [parts = [p for p in url.split('/') if p]]. *)
Definition parts (url : string) : list string :=
  filter truthy (split "/"%char url).

(** [int(s)] on a [str], base 10, for ASCII text: surrounding white space is
    stripped, one sign is allowed, digits may be grouped by single
    underscores, leading zeros are allowed. *)
Definition is_space (c : ascii) : bool :=
  let n := nat_of_ascii c in
  (((9 <=? n) && (n <=? 13)) || (n =? 32))%nat.

Definition digit_of (c : ascii) : option Z :=
  let n := nat_of_ascii c in
  if ((48 <=? n) && (n <=? 57))%nat then Some (Z.of_nat (n - 48)) else None.

Fixpoint lstrip (s : string) : string :=
  match s with
  | EmptyString => EmptyString
  | String c r => if is_space c then lstrip r else s
  end.

Fixpoint rstrip (s : string) : string :=
  match s with
  | EmptyString => EmptyString
  | String c r =>
      match rstrip r with
      | EmptyString => if is_space c then EmptyString else String c EmptyString
      | r' => String c r'
      end
  end.

(** Digits with single underscores between them; [after_digit] tells whether
    the previous character was a digit. *)
Fixpoint digits (acc : Z) (after_digit : bool) (s : string) : option Z :=
  match s with
  | EmptyString => if after_digit then Some acc else None
  | String c r =>
      match digit_of c with
      | Some d => digits (10 * acc + d) true r
      | None =>
          if Ascii.eqb c "_"%char && after_digit then digits acc false r
          else None
      end
  end.

Definition py_int (s : string) : option Z :=
  match lstrip (rstrip s) with
  | String "-"%char r => option_map Z.opp (digits 0 false r)
  | String "+"%char r => digits 0 false r
  | body => digits 0 false body
  end.

Definition int_of_str (s : string) : result Z :=
  match py_int s with
  | Some z => Ok z
  | None => Raise (ValueError ("invalid literal for int() with base 10: " ++ s)%string)
  end.

(** The exception of line 13. *)
Definition url_error : exn :=
  ValueError "URL tidak valid untuk mendeteksi APPID.".

(** The marker segment of a store URL. *)
Definition marker : string := "app".

(** Lines 10-13: the loop over [enumerate(parts)].  At position [i] the
    remaining list is [p :: rest]; [i + 1 < len(parts)] says that [rest] is
    not empty, and [parts[i+1]] is its head. *)
Fixpoint scan_parts (ps : list string) : result Z :=
  match ps with
  | [] => Raise url_error
  | p :: rest =>
      match rest with
      | nxt :: _ => if String.eqb p marker then int_of_str nxt else scan_parts rest
      | [] => scan_parts rest
      end
  end.

Definition get_appid_from_url (url : string) : result Z :=
  scan_parts (parts url).

(** ** Calendar time *)

(** A naive [datetime], at whole-second resolution. *)
Record datetime : Type := mk_datetime {
  dt_year : Z; dt_month : Z; dt_day : Z;
  dt_hour : Z; dt_minute : Z; dt_second : Z
}.

(** Days since 1970-01-01 of a proleptic Gregorian date. *)
Definition days_from_civil (y m d : Z) : Z :=
  let y' := if m <=? 2 then y - 1 else y in
  let era := y' / 400 in
  let yoe := y' - era * 400 in
  let mp := if m <=? 2 then m + 9 else m - 3 in
  let doy := (153 * mp + 2) / 5 + d - 1 in
  let doe := yoe * 365 + yoe / 4 - yoe / 100 + doy in
  era * 146097 + doe - 719468.

(** [int(dt.replace(tzinfo=timezone.utc).timestamp())] (lines 37-38). *)
Definition timestamp_utc (dt : datetime) : Z :=
  days_from_civil (dt_year dt) (dt_month dt) (dt_day dt) * 86400
  + dt_hour dt * 3600 + dt_minute dt * 60 + dt_second dt.

(** [datetime.utcfromtimestamp(ts)] (line 59). *)
Definition utcfromtimestamp (ts : Z) : datetime :=
  let days := ts / 86400 in
  let secs := ts mod 86400 in
  let z := days + 719468 in
  let era := z / 146097 in
  let doe := z - era * 146097 in
  let yoe := (doe - doe / 1460 + doe / 36524 - doe / 146096) / 365 in
  let doy := doe - (365 * yoe + yoe / 4 - yoe / 100) in
  let mp := (5 * doy + 2) / 153 in
  let d := doy - (153 * mp + 2) / 5 + 1 in
  let m := if mp <? 10 then mp + 3 else mp - 9 in
  let y := yoe + era * 400 + (if m <=? 2 then 1 else 0) in
  mk_datetime y m d (secs / 3600) ((secs mod 3600) / 60) (secs mod 60).

(** ** The upstream feed and [fetch_reviews] (lines 15-77) *)

(** The [author] object of an upstream entry. *)
Record raw_author : Type := mk_raw_author {
  a_steamid : option string;
  a_playtime_at_review : option Z
}.

(** One entry of the [reviews] array of a response.  A key the feed leaves
    out is [None]; the values carry the types of the feed's contract. *)
Record raw_review : Type := mk_raw_review {
  rv_recommendationid : option string;
  rv_author : option raw_author;
  rv_language : option string;
  rv_review : option string;
  rv_timestamp_created : option Z;
  rv_voted_up : option bool;
  rv_votes_up : option Z;
  rv_votes_funny : option Z;
  rv_comment_count : option Z;
  rv_steam_purchase : option bool;
  rv_received_for_free : option bool
}.

(** The request parameters that are not constants of the program. *)
Record params : Type := mk_params {
  p_language : string;
  p_num_per_page : Z;
  p_cursor : string;
  p_filter_offtopic_activity : Z
}.

(** What [requests.get] followed by [raise_for_status] and [r.json()] gives:
    a failure, or the decoded object with its [reviews] (absent: empty) and
    its [cursor] (possibly absent). *)
Inductive response : Type :=
| HttpFailure
| Json (reviews : list raw_review) (cursor : option string).

(** The feed: the answer to a request for a product with given parameters. *)
Definition feed : Type := Z -> params -> response.

(** One row of the output: the dictionary built at lines 52-67. *)
Record review : Type := mk_review {
  app_id : Z;
  recommendationid : option string;
  author_steamid : option string;
  language : option string;
  review_text : option string;
  timestamp_created : Z;
  datetime_created_utc : datetime;
  voted_up : bool;
  votes_up : option Z;
  votes_funny : option Z;
  comment_count : option Z;
  steam_purchase : option bool;
  received_for_free : option bool;
  playtime_at_review : option Z
}.

(** [int(rv.get("timestamp_created", 0))] (lines 50 and 71). *)
Definition ts_of (rv : raw_review) : Z :=
  match rv_timestamp_created rv with Some t => t | None => 0 end.

(** Line 51: [start_ts <= ts < end_ts]. *)
Definition in_window (start_ts end_ts : Z) (rv : raw_review) : bool :=
  (start_ts <=? ts_of rv) && (ts_of rv <? end_ts).

Definition bind_opt {A B : Type} (o : option A) (f : A -> option B) : option B :=
  match o with Some a => f a | None => None end.

Definition truth (o : option bool) : bool :=
  match o with Some b => b | None => false end.

Definition make_review (app : Z) (rv : raw_review) : review :=
  let ts := ts_of rv in
  {| app_id := app;
     recommendationid := rv_recommendationid rv;
     author_steamid := bind_opt (rv_author rv) a_steamid;
     language := rv_language rv;
     review_text := rv_review rv;
     timestamp_created := ts;
     datetime_created_utc := utcfromtimestamp ts;
     voted_up := truth (rv_voted_up rv);
     votes_up := rv_votes_up rv;
     votes_funny := rv_votes_funny rv;
     comment_count := rv_comment_count rv;
     steam_purchase := rv_steam_purchase rv;
     received_for_free := rv_received_for_free rv;
     playtime_at_review := bind_opt (rv_author rv) a_playtime_at_review |}.

(** Lines 49-67: what one page contributes to the output. *)
Definition page_yield (app start_ts end_ts : Z) (reviews : list raw_review)
  : list review :=
  map (make_review app) (filter (in_window start_ts end_ts) reviews).

(** Line 71: [reviews[-1]] of a non-empty page. *)
Definition oldest_ts_in_batch (first : raw_review) (others : list raw_review) : Z :=
  ts_of (last others first).

(** Line 76: [params["cursor"] = data.get("cursor", params["cursor"])]. *)
Definition advance (prm : params) (cursor : option string) : params :=
  {| p_language := p_language prm;
     p_num_per_page := p_num_per_page prm;
     p_cursor := match cursor with Some c => c | None => p_cursor prm end;
     p_filter_offtopic_activity := p_filter_offtopic_activity prm |}.

(** How a run of the generator ended. *)
Inductive status : Type :=
| Exhausted      (* line 47: an empty page *)
| BelowWindow    (* line 73: the page's last entry is older than the window *)
| Failed         (* line 42: the request failed, the exception propagates *)
| OutOfFuel.     (* the loop was still running after the allotted requests *)

(** A fully consumed run: the rows yielded in order, the parameters of each
    request sent in order, and how the run ended. *)
Record run : Type := mk_run {
  yielded : list review;
  requested : list params;
  ended : status
}.

(** The [while True] loop of lines 40-77; [fuel] bounds the number of
    requests. *)
Fixpoint fetch_loop (fuel : nat) (get : feed) (app start_ts end_ts : Z)
    (prm : params) : run :=
  match fuel with
  | O => mk_run [] [] OutOfFuel
  | S fuel' =>
      match get app prm with
      | HttpFailure => mk_run [] [prm] Failed
      | Json [] _ => mk_run [] [prm] Exhausted
      | Json (rv :: rvs) cursor =>
          let out := page_yield app start_ts end_ts (rv :: rvs) in
          if oldest_ts_in_batch rv rvs <? start_ts then
            mk_run out [prm] BelowWindow
          else
            let rest := fetch_loop fuel' get app start_ts end_ts (advance prm cursor) in
            mk_run (out ++ yielded rest) (prm :: requested rest) (ended rest)
      end
  end.

(** Lines 26-35: the parameters of the first request. *)
Definition initial_params (lang : string) (include_offtopic : bool)
    (per_page : Z) : params :=
  {| p_language := lang;
     p_num_per_page := per_page;
     p_cursor := "*";
     p_filter_offtopic_activity := if negb include_offtopic then 0 else 1 |}.

Definition fetch_reviews (fuel : nat) (get : feed) (app : Z)
    (start_dt end_dt : datetime) (lang : string) (include_offtopic : bool)
    (per_page : Z) : run :=
  fetch_loop fuel get app (timestamp_utc start_dt) (timestamp_utc end_dt)
    (initial_params lang include_offtopic per_page).

(** The pages of the feed in the order a client following the cursors sees
    them, up to the first empty page or failed request, within [n]
    requests. *)
Inductive feed_end : Type := EndOfFeed | FeedFailure | Unfinished.

Fixpoint walk (n : nat) (get : feed) (app : Z) (prm : params)
  : list (list raw_review) * feed_end :=
  match n with
  | O => ([], Unfinished)
  | S n' =>
      match get app prm with
      | HttpFailure => ([], FeedFailure)
      | Json [] _ => ([], EndOfFeed)
      | Json (rv :: rvs) cursor =>
          let w := walk n' get app (advance prm cursor) in
          ((rv :: rvs) :: fst w, snd w)
      end
  end.

(** The parameters of the [k]-th request of a client following the cursors. *)
Definition next_params (get : feed) (app : Z) (prm : params) : params :=
  match get app prm with
  | Json _ cursor => advance prm cursor
  | HttpFailure => prm
  end.

Fixpoint nth_params (k : nat) (get : feed) (app : Z) (prm : params) : params :=
  match k with
  | O => prm
  | S k' => nth_params k' get app (next_params get app prm)
  end.

(** The responses on which the loop stops: a failure, an empty page, or a
    page whose last entry is older than [start_ts]. *)
Definition halting (start_ts : Z) (r : response) : bool :=
  match r with
  | HttpFailure => true
  | Json [] _ => true
  | Json (rv :: rvs) _ => oldest_ts_in_batch rv rvs <? start_ts
  end.

(** How a run ends on a halting response. *)
Definition end_of (r : response) : status :=
  match r with
  | HttpFailure => Failed
  | Json [] _ => Exhausted
  | Json (_ :: _) _ => BelowWindow
  end.

(** The feed's order: an entry is never followed by a newer one. *)
Definition not_older (a b : raw_review) : Prop := ts_of b <= ts_of a.

Definition newest_first (entries : list raw_review) : Prop :=
  Sorted not_older entries.

(** ** Data frames and monthly buckets *)

(** A data frame of reviews is the list of its rows in positional order; the
    index that [reset_index(drop=True)] renumbers is the position. *)
Definition frame : Type := list review.

(** A calendar month as the ordinal of a monthly period: months elapsed since
    January 1970.  The program keeps the month as the text [YYYY-MM]; over
    four-digit years the order of the texts is the order of the ordinals. *)
Definition month : Type := Z.

(** [dt.to_period("M")] (lines 81 and 107). *)
Definition to_period_M (dt : datetime) : month :=
  (dt_year dt - 1970) * 12 + (dt_month dt - 1).

Definition month_of (r : review) : month :=
  to_period_M (datetime_created_utc r).

(** The distinct keys of a [groupby], ascending. *)
Fixpoint insert_key (k : month) (ks : list month) : list month :=
  match ks with
  | [] => [k]
  | h :: t =>
      if k <? h then k :: ks
      else if k =? h then ks
      else h :: insert_key k t
  end.

Definition group_keys (df : frame) : list month :=
  fold_right insert_key [] (map month_of df).

(** The rows of one group, in the frame's order. *)
Definition group_of (m : month) (df : frame) : frame :=
  filter (fun r => month_of r =? m) df.

(** Iterating over [df.groupby("month")]: keys ascending, each with its
    rows. *)
Definition groupby (df : frame) : list (month * frame) :=
  map (fun m => (m, group_of m df)) (group_keys df).

(** ** [monthly_sample] (lines 79-103) *)

(** Order of the [votes_up] column when sorting descending: a larger count
    first, a missing count last. *)
Definition votes_geb (a b : option Z) : bool :=
  match a, b with
  | Some x, Some y => y <=? x
  | Some _, None => true
  | None, Some _ => false
  | None, None => true
  end.

(** [a] may stand before [b] in a frame sorted by
    [["month", "votes_up"]], [ascending=[True, False]]. *)
Definition month_votes_leb (a b : review) : bool :=
  (month_of a <? month_of b)
  || ((month_of a =? month_of b) && votes_geb (votes_up a) (votes_up b)).

(** A stable sort: each row is inserted before the first row that it may
    stand before, rows being taken from the right. *)
Fixpoint insert_row (leb : review -> review -> bool) (x : review) (l : frame)
  : frame :=
  match l with
  | [] => [x]
  | y :: t => if leb x y then x :: l else y :: insert_row leb x t
  end.

Definition stable_sort (leb : review -> review -> bool) (l : frame) : frame :=
  fold_right (insert_row leb) [] l.

(** Line 85: [df.sort_values(["month", "votes_up"], ascending=[True, False])];
    a sort on several columns is stable. *)
Definition sort_values_month_votes (df : frame) : frame :=
  stable_sort month_votes_leb df.

(** Lines 86-87: [groupby("month", group_keys=False).head(n)] keeps, in the
    frame's order, the rows that have fewer than [n] rows of their own month
    before them.  [seen] holds the months of the rows already passed. *)
Fixpoint head_rows (n : nat) (seen : list month) (df : frame) : frame :=
  match df with
  | [] => []
  | r :: t =>
      let rest := head_rows n (month_of r :: seen) t in
      if (count_occ Z.eq_dec seen (month_of r) <? n)%nat then r :: rest else rest
  end.

Definition groupby_head (n : nat) (df : frame) : frame := head_rows n [] df.

(** What random mode takes from its execution environment: the generator
    behind [random.Random] and the sampler behind [DataFrame.sample]. *)
Record Env : Type := mk_env {
  rng : Type;
  (** [random.Random(seed)] *)
  Random : Z -> rng;
  (** [rng.randint(a, b)]: the number drawn and the generator afterwards *)
  randint : Z -> Z -> rng -> Z * rng;
  (** [group.sample(n=n, random_state=s)] *)
  sample : nat -> Z -> frame -> frame
}.

(** Lines 92-98: the loop over the groups; the generator is threaded through
    the iterations, one draw per non-empty group. *)
Fixpoint sample_groups (E : Env) (st : rng E) (n_per_month : nat)
    (groups : list (month * frame)) : list frame :=
  match groups with
  | [] => []
  | (_, g) :: rest =>
      match g with
      | [] => sample_groups E st n_per_month rest
      | _ :: _ =>
          let n_sample := Nat.min n_per_month (List.length g) in
          let (random_state, st') := randint E 0 (10 ^ 9) st in
          sample E n_sample random_state g :: sample_groups E st' n_per_month rest
      end
  end.

Definition monthly_sample (E : Env) (df : frame) (n_per_month : nat)
    (seed : Z) (by_top_helpful : bool) : frame :=
  if by_top_helpful then
    groupby_head n_per_month (sort_values_month_votes df)
  else
    List.concat (sample_groups E (Random E seed) n_per_month (groupby df)).

(** Top-helpful mode as the specification words it, month by month: the
    month's rows ordered by vote count descending, ties in their original
    order, and the first [n] of them. *)
Definition votes_leb (a b : review) : bool := votes_geb (votes_up a) (votes_up b).

Definition top_helpful_of_month (n : nat) (m : month) (df : frame) : frame :=
  firstn n (stable_sort votes_leb (group_of m df)).

(** The sub-seed that random mode hands to the sampler for month [m]: the
    draw whose rank is the number of distinct months before [m]. *)
Fixpoint nth_draw (E : Env) (k : nat) (st : rng E) : Z :=
  match k with
  | O => fst (randint E 0 (10 ^ 9) st)
  | S k' => nth_draw E k' (snd (randint E 0 (10 ^ 9) st))
  end.

Definition months_before (m : month) (df : frame) : nat :=
  List.length (filter (fun k => k <? m) (group_keys df)).

(** ** [monthly_summary] (lines 105-126) *)

(** Rounding of the exact quotient [num / den] to the nearest integer, ties
    to the even one, for [den > 0]. *)
Definition round_half_even (num den : Z) : Z :=
  let q := num / den in
  let r := num mod den in
  if 2 * r <? den then q
  else if den <? 2 * r then q + 1
  else if Z.even q then q else q + 1.

(** [(positive / total).round(3)], as an exact fraction of denominator
    1000. *)
Definition round3 (positive total : Z) : Q :=
  round_half_even (1000 * positive) total # 1000.

Record summary_row : Type := mk_summary_row {
  s_month : month;
  total_reviews : Z;
  positive : Z;
  negative : Z;
  pos_share : Q
}.

(** [sum(group['voted_up'])]. *)
Definition count_positive (g : frame) : Z :=
  fold_right (fun r acc => (if voted_up r then 1 else 0) + acc) 0 g.

(** Lines 111-124 for one group. *)
Definition summarize (mg : month * frame) : summary_row :=
  let total := Z.of_nat (List.length (snd mg)) in
  let pos := count_positive (snd mg) in
  {| s_month := fst mg;
     total_reviews := total;
     positive := pos;
     negative := total - pos;
     pos_share := round3 pos total |}.

(** A frame without rows has no groups, the aggregate has no
    [total_reviews] column, and line 123 raises. *)
Definition monthly_summary (df : frame) : result (list summary_row) :=
  match df with
  | [] => Raise (KeyError "total_reviews")
  | _ :: _ => Ok (map summarize (groupby df))
  end.


(** ** Vocabulary of the statements about the sampler *)




(** The sampler returns rows of the frame it samples. *)
Definition samples_within (E : Env) : Prop :=
  forall n s g r, In r (sample E n s g) -> In r g.

(** ** Example inputs *)

(** An upstream entry that carries only a timestamp (possibly absent), a
    recommendation flag and a vote count. *)
Definition entry (ts : option Z) (up : bool) (votes : Z) : raw_review :=
  {| rv_recommendationid := None; rv_author := None; rv_language := None;
     rv_review := None; rv_timestamp_created := ts; rv_voted_up := Some up;
     rv_votes_up := Some votes; rv_votes_funny := None;
     rv_comment_count := None; rv_steam_purchase := None;
     rv_received_for_free := None |}.

(** The window [2024-01-01, 2024-03-01), that is [1704067200, 1709251200)
    in epoch seconds. *)
Definition jan_2024 : datetime := mk_datetime 2024 1 1 0 0 0.
Definition mar_2024 : datetime := mk_datetime 2024 3 1 0 0 0.

(** A feed of three pages, newest first: one entry after the window and one
    inside; two inside; one inside and one before the window.  Every other
    cursor gets an empty page. *)
Definition sorted_feed : feed := fun _ prm =>
  if String.eqb (p_cursor prm) "*" then
    Json [entry (Some 1710000000) true 3; entry (Some 1709000000) true 5] (Some "c1")
  else if String.eqb (p_cursor prm) "c1" then
    Json [entry (Some 1708000000) false 5; entry (Some 1706000000) true 1] (Some "c2")
  else if String.eqb (p_cursor prm) "c2" then
    Json [entry (Some 1705000000) true 0; entry (Some 1700000000) false 2] (Some "c3")
  else Json [] None.

(** A feed that answers every request with the same one-entry page, inside
    the window, and never sends a cursor. *)
Definition stuck_feed : feed := fun _ _ =>
  Json [entry (Some 1706000000) true 0] None.

(** A feed whose first page ends with an entry that has no timestamp, and
    whose second page holds an entry inside the window. *)
Definition gap_feed : feed := fun _ prm =>
  if String.eqb (p_cursor prm) "*" then
    Json [entry (Some 1709000000) true 1; entry None true 0] (Some "c1")
  else if String.eqb (p_cursor prm) "c1" then
    Json [entry (Some 1708000000) true 4] (Some "c2")
  else Json [] None.

(** A feed with one page inside the window, then the end of the feed. *)
Definition short_feed : feed := fun _ prm =>
  if String.eqb (p_cursor prm) "*" then
    Json [entry (Some 1708000000) true 4] (Some "c1")
  else Json [] None.

Definition first_request : params := initial_params "all" false 100.

(** A small concrete environment, used to run random mode on examples: a
    linear congruential generator, and a sampler that takes [n] rows starting
    at the position given by the random state, wrapping around.  It stands
    for no particular library; the properties below are stated for every
    environment. *)
Definition lcg_next (st : Z) : Z := (1103515245 * st + 12345) mod 2147483648.

Definition rotate_sample (n : nat) (random_state : Z) (g : frame) : frame :=
  let k := Z.to_nat (random_state mod Z.of_nat (List.length g)) in
  firstn n (skipn k g ++ firstn k g).

Definition lcg_env : Env :=
  {| rng := Z;
     Random := fun seed => seed;
     randint := fun a b st => (a + lcg_next st mod (b - a + 1), lcg_next st);
     sample := rotate_sample |}.



(** A row of the frame with a creation timestamp, a recommendation flag and
    a vote count. *)
Definition row (ts : Z) (up : bool) (votes : Z) : review :=
  make_review 367520 (entry (Some ts) up votes).

(** Three rows of February 2024. *)
Definition february : frame :=
  [row 1707000000 true 2; row 1708000000 false 7; row 1709000000 true 7].

(** One row of January 2024. *)
Definition january : frame := [row 1705000000 true 1].

(** One row of March 2024. *)
Definition march : frame := [row 1710000000 false 4].

(* ================================================================== *)
(** * Further definitions: the rest of the script *)
(* ================================================================== *)

(** ** Vocabulary for runs of the fetcher *)

(** The rows that the page answering request [p] contributes. *)
Definition page_rows (get : feed) (app start_ts end_ts : Z) (p : params)
  : list review :=
  match get app p with
  | Json reviews _ => page_yield app start_ts end_ts reviews
  | HttpFailure => []
  end.

(** The last element of a list, if any. *)
Definition last_error {A : Type} (l : list A) : option A :=
  match l with
  | [] => None
  | x :: t => Some (last t x)
  end.

(** Rows in the feed's order: never a newer row after an older one. *)
Definition rows_newest_first (rows : list review) : Prop :=
  StronglySorted (fun a b => timestamp_created b <= timestamp_created a) rows.

(** A feed whose second request fails. *)
Definition failing_feed : feed := fun _ prm =>
  if String.eqb (p_cursor prm) "*" then
    Json [entry (Some 1708000000) true 4] (Some "c1")
  else HttpFailure.

(* ================================================================== *)
(** * Part II: properties *)
(* ================================================================== *)

(** ** The identifier extractor *)











(** The two scenarios of the specification. *)
Example get_appid_example_ok :
  get_appid_from_url "https://example.com/app/12345/Name/" = Ok 12345.
Proof. reflexivity. Qed.

Example get_appid_example_fail :
  get_appid_from_url "https://example.com/nope/" = Raise url_error.
Proof. reflexivity. Qed.

(** ** The windowed fetcher *)

Lemma timestamp_of_make_review (app : Z) (rv : raw_review) :
  timestamp_created (make_review app rv) = ts_of rv.
Proof. reflexivity. Qed.

Lemma in_window_spec (s e : Z) (rv : raw_review) :
  in_window s e rv = true <-> s <= ts_of rv < e.
Proof.
  unfold in_window. rewrite andb_true_iff, Z.leb_le, Z.ltb_lt. tauto.
Qed.

Lemma page_yield_app (app s e : Z) (l1 l2 : list raw_review) :
  page_yield app s e (l1 ++ l2) = page_yield app s e l1 ++ page_yield app s e l2.
Proof. unfold page_yield. now rewrite filter_app, map_app. Qed.

Lemma page_yield_in_window (app s e : Z) (rs : list raw_review) :
  Forall (fun r => s <= timestamp_created r < e) (page_yield app s e rs).
Proof.
  unfold page_yield. apply Forall_forall. intros r Hr.
  apply in_map_iff in Hr. destruct Hr as (rv & <- & Hrv).
  apply filter_In in Hrv. destruct Hrv as [_ Hw].
  rewrite timestamp_of_make_review. now apply in_window_spec.
Qed.

(** Every page whose entries are all older than the window contributes
    nothing. *)
Lemma page_yield_all_older (app s e : Z) (rs : list raw_review) :
  Forall (fun rv => ts_of rv < s) rs -> page_yield app s e rs = [].
Proof.
  unfold page_yield. induction 1 as [|rv rs Hrv _ IH]; [reflexivity|].
  simpl. unfold in_window at 1.
  replace (s <=? ts_of rv) with false by (symmetry; apply Z.leb_gt; lia).
  exact IH.
Qed.

Lemma fetch_loop_in_window (fuel : nat) (get : feed) (app s e : Z) (prm : params) :
  Forall (fun r => s <= timestamp_created r < e)
         (yielded (fetch_loop fuel get app s e prm)).
Proof.
  revert prm. induction fuel as [|fuel IH]; intros prm; simpl.
  - constructor.
  - destruct (get app prm) as [|[|rv rvs] cursor]; simpl; try constructor.
    destruct (oldest_ts_in_batch rv rvs <? s); simpl.
    + apply page_yield_in_window.
    + apply Forall_app. split; [apply page_yield_in_window | apply IH].
Qed.

(** C1.  Whatever the feed answers, whatever the window and however long the
    run, every row yielded by [fetch_reviews] has a creation timestamp [t]
    with [s_ts <= t < e_ts], the bounds being the UTC epoch seconds of the
    window's ends. *)
Theorem fetch_reviews_in_window (fuel : nat) (get : feed) (app : Z)
    (start_dt end_dt : datetime) (lang : string) (include_offtopic : bool)
    (per_page : Z) :
  Forall (fun r => timestamp_utc start_dt <= timestamp_created r < timestamp_utc end_dt)
         (yielded (fetch_reviews fuel get app start_dt end_dt lang include_offtopic per_page)).
Proof. apply fetch_loop_in_window. Qed.

(** The window of the examples, in epoch seconds. *)
Example window_2024 :
  timestamp_utc jan_2024 = 1704067200 /\ timestamp_utc mar_2024 = 1709251200.
Proof. split; reflexivity. Qed.

(** A full run over the three pages of [sorted_feed]: four rows, three
    requests, stopped by the page that reaches below the window. *)
Example fetch_sorted_feed :
  let r := fetch_reviews 10 sorted_feed 367520 jan_2024 mar_2024 "all" false 100 in
  map timestamp_created (yielded r) = [1709000000; 1708000000; 1706000000; 1705000000]
  /\ map p_cursor (requested r) = ["*"; "c1"; "c2"]%string
  /\ ended r = BelowWindow.
Proof. repeat split. Qed.

(** *** Completeness over a feed that is sorted newest first *)

Lemma newest_first_strong (l : list raw_review) :
  newest_first l -> StronglySorted not_older l.
Proof.
  apply Sorted_StronglySorted. intros a b c Hab Hbc.
  unfold not_older in *. lia.
Qed.

Lemma strongly_sorted_app (A : Type) (R : A -> A -> Prop) (l1 l2 : list A) :
  StronglySorted R (l1 ++ l2) ->
  StronglySorted R l2 /\ (forall a b, In a l1 -> In b l2 -> R a b).
Proof.
  induction l1 as [|x l1 IH]; simpl; intros H.
  - split; [exact H | intros a b []].
  - apply StronglySorted_inv in H. destruct H as [Hs Hx].
    destruct (IH Hs) as [H2 Hall]. split; [exact H2|].
    intros a b [<-|Ha] Hb.
    + rewrite Forall_forall in Hx. apply Hx. apply in_or_app. now right.
    + now apply Hall.
Qed.

Lemma last_cons (A : Type) (l : list A) (x y : A) :
  last (y :: l) x = last l y.
Proof.
  revert x y. induction l as [|z l IH]; intros x y; [reflexivity|].
  change (last (y :: z :: l) x) with (last (z :: l) x).
  now rewrite (IH x z), (IH y z).
Qed.

Lemma last_in (A : Type) (x : A) (l : list A) : In (last l x) (x :: l).
Proof.
  revert x. induction l as [|y l IH]; intros x; [now left|].
  right. rewrite last_cons. apply IH.
Qed.

(** After a page that reaches below the window, a sorted feed has nothing
    left for the window. *)
Lemma below_window_rest_empty (app s e : Z) (rv : raw_review)
    (rvs rest : list raw_review) :
  StronglySorted not_older ((rv :: rvs) ++ rest) ->
  oldest_ts_in_batch rv rvs < s ->
  page_yield app s e rest = [].
Proof.
  intros Hs Hold. apply strongly_sorted_app in Hs. destruct Hs as [_ Hall].
  apply page_yield_all_older. apply Forall_forall. intros b Hb.
  specialize (Hall (last rvs rv) b (last_in _ rv rvs) Hb).
  unfold not_older, oldest_ts_in_batch in *. lia.
Qed.

Lemma fetch_loop_complete (n : nat) (get : feed) (app s e : Z) :
  forall (prm : params),
    snd (walk n get app prm) = EndOfFeed ->
    StronglySorted not_older (List.concat (fst (walk n get app prm))) ->
    forall fuel, (n <= fuel)%nat ->
      let r := fetch_loop fuel get app s e prm in
      yielded r = page_yield app s e (List.concat (fst (walk n get app prm)))
      /\ (ended r = Exhausted \/ ended r = BelowWindow).
Proof.
  induction n as [|n IH]; intros prm Hend Hsorted fuel Hfuel; [discriminate|].
  destruct fuel as [|fuel]; [lia|].
  cbn [walk fetch_loop] in *.
  destruct (get app prm) as [|[|rv rvs] cursor];
    cbn [fst snd List.concat yielded ended] in *.
  - discriminate.
  - split; [reflexivity | now left].
  - set (w := walk n get app (advance prm cursor)) in *.
    rewrite page_yield_app.
    destruct (oldest_ts_in_batch rv rvs <? s) eqn:Hold;
      cbn [yielded ended].
    + apply Z.ltb_lt in Hold.
      rewrite (below_window_rest_empty app s e rv rvs _ Hsorted Hold).
      split; [now rewrite app_nil_r | now right].
    + assert (Hrest : StronglySorted not_older (List.concat (fst w))).
      { now apply strongly_sorted_app in Hsorted. }
      destruct (IH (advance prm cursor) Hend Hrest fuel) as [Hy He]; [lia|].
      fold w in Hy. rewrite Hy. split; [reflexivity | exact He].
Qed.

(** C2.  Let the feed end, after finitely many requests, with an empty page,
    and let its entries, read page after page, be ordered newest first
    (non-increasing creation timestamps).  Then a run of [fetch_reviews] that
    is given at least as many requests ends normally, and the rows it yields
    are exactly the rows made of the upstream entries whose timestamp lies
    in the window, in the feed's order: none is missed by the early stop. *)
Theorem fetch_reviews_complete (n : nat) (get : feed) (app : Z)
    (start_dt end_dt : datetime) (lang : string) (include_offtopic : bool)
    (per_page : Z) :
  let prm := initial_params lang include_offtopic per_page in
  let upstream := List.concat (fst (walk n get app prm)) in
  snd (walk n get app prm) = EndOfFeed ->
  newest_first upstream ->
  forall fuel, (n <= fuel)%nat ->
    let r := fetch_reviews fuel get app start_dt end_dt lang include_offtopic per_page in
    yielded r
    = map (make_review app)
          (filter (in_window (timestamp_utc start_dt) (timestamp_utc end_dt)) upstream)
    /\ (ended r = Exhausted \/ ended r = BelowWindow).
Proof.
  intros prm upstream Hend Hsorted fuel Hfuel.
  apply (fetch_loop_complete n get app _ _ prm Hend); [|exact Hfuel].
  now apply newest_first_strong.
Qed.

Lemma fetch_reviews_complete_witness :
  let r := fetch_reviews 4 sorted_feed 367520 jan_2024 mar_2024 "all" false 100 in
  yielded r
  = map (make_review 367520)
        [entry (Some 1709000000) true 5; entry (Some 1708000000) false 5;
         entry (Some 1706000000) true 1; entry (Some 1705000000) true 0]
  /\ (ended r = Exhausted \/ ended r = BelowWindow).
Proof.
  apply (fetch_reviews_complete 4 sorted_feed 367520 jan_2024 mar_2024 "all" false 100).
  - reflexivity.
  - vm_compute List.concat.
    repeat (constructor; try (unfold not_older, ts_of; simpl; lia)).
  - lia.
Defined.

(** *** Where a run stops *)

(** A request that is answered by a halting response is the last one of the
    run, and the run ends accordingly. *)
Lemma halting_request_is_last (fuel : nat) (get : feed) (app s e : Z) :
  forall (prm : params) (i : nat) (p : params),
    nth_error (requested (fetch_loop fuel get app s e prm)) i = Some p ->
    halting s (get app p) = true ->
    List.length (requested (fetch_loop fuel get app s e prm)) = S i
    /\ ended (fetch_loop fuel get app s e prm) = end_of (get app p).
Proof.
  induction fuel as [|fuel IH]; intros prm i p Hi Hhalt.
  - destruct i; discriminate.
  - cbn [fetch_loop] in *.
    destruct (get app prm) as [|[|rv rvs] cursor] eqn:G.
    + destruct i as [|[|j]]; try discriminate.
      injection Hi as <-. rewrite G. now split.
    + destruct i as [|[|j]]; try discriminate.
      injection Hi as <-. rewrite G. now split.
    + destruct (oldest_ts_in_batch rv rvs <? s) eqn:Hold; cbn [requested ended] in *.
      * destruct i as [|[|j]]; try discriminate.
        injection Hi as <-. rewrite G. now split.
      * destruct i as [|j]; cbn [nth_error] in Hi.
        -- injection Hi as <-. rewrite G in Hhalt. cbn [halting] in Hhalt. congruence.
        -- destruct (IH _ _ _ Hi Hhalt) as [Hlen Hend].
           cbn [List.length]. now rewrite Hlen.
Qed.

(** The loop stops no later than the first halting response on the path of
    the cursors. *)
Lemma fetch_loop_halts (k : nat) (get : feed) (app s e : Z) :
  forall (prm : params),
    halting s (get app (nth_params k get app prm)) = true ->
    forall fuel, (k < fuel)%nat ->
      ended (fetch_loop fuel get app s e prm) <> OutOfFuel
      /\ (List.length (requested (fetch_loop fuel get app s e prm)) <= S k)%nat.
Proof.
  induction k as [|k IH]; intros prm Hhalt fuel Hfuel;
    (destruct fuel as [|fuel]; [lia|]); cbn [nth_params] in Hhalt;
    cbn [fetch_loop].
  - destruct (get app prm) as [|[|rv rvs] cursor];
      cbn [halting] in Hhalt; try rewrite Hhalt; cbn; split; (discriminate || lia).
  - unfold next_params in Hhalt.
    destruct (get app prm) as [|[|rv rvs] cursor];
      try (cbn; split; (discriminate || lia)).
    destruct (oldest_ts_in_batch rv rvs <? s);
      try (cbn; split; (discriminate || lia)).
    destruct (IH (advance prm cursor) Hhalt fuel) as [He Hl]; [lia|].
    cbn [ended requested List.length]. split; [exact He | lia].
Qed.

(** C3, as the code has it.  For every window: if the path of the cursors
    reaches, at its [k]-th request (counted from 0), a failed request, an
    empty page, or a page whose last entry is older than the window's start,
    then [fetch_reviews] ends after at most [k + 1] requests, whether or not
    the window matches any record. *)
Theorem fetch_reviews_terminates (k : nat) (get : feed) (app : Z)
    (start_dt end_dt : datetime) (lang : string) (include_offtopic : bool)
    (per_page : Z) :
  halting (timestamp_utc start_dt)
          (get app (nth_params k get app (initial_params lang include_offtopic per_page)))
  = true ->
  forall fuel, (k < fuel)%nat ->
    let r := fetch_reviews fuel get app start_dt end_dt lang include_offtopic per_page in
    ended r <> OutOfFuel /\ (List.length (requested r) <= S k)%nat.
Proof. intros Hhalt fuel Hfuel. now apply fetch_loop_halts. Qed.

(** A window before every entry of [short_feed]: nothing is yielded, and the
    run ends at the empty second page. *)
Lemma fetch_reviews_terminates_witness :
  let r := fetch_reviews 5 short_feed 367520 (mk_datetime 2017 1 1 0 0 0)
             (mk_datetime 2018 1 1 0 0 0) "all" false 100 in
  ended r <> OutOfFuel /\ (List.length (requested r) <= 2)%nat.
Proof.
  apply (fetch_reviews_terminates 1 short_feed 367520 (mk_datetime 2017 1 1 0 0 0)
           (mk_datetime 2018 1 1 0 0 0) "all" false 100); [reflexivity | lia].
Defined.

Lemma stuck_feed_loops (fuel : nat) (prm : params) :
  let r := fetch_loop fuel stuck_feed 367520 1704067200 1709251200 prm in
  ended r = OutOfFuel /\ List.length (requested r) = fuel.
Proof.
  revert prm. induction fuel as [|fuel IH]; intros prm; [now split|].
  cbn [fetch_loop stuck_feed].
  replace (oldest_ts_in_batch (entry (Some 1706000000) true 0) [] <? 1704067200)
    with false by reflexivity.
  destruct (IH (advance prm None)) as [He Hl].
  cbn [ended requested List.length]. now rewrite He, Hl.
Qed.

(** C3, as it is worded, fails: on a feed that keeps answering with the same
    non-empty page inside the window, no number of requests ends the run. *)
Lemma fetch_reviews_pages_forever :
  ~ exists fuel : nat,
      ended (fetch_reviews fuel stuck_feed 367520 jan_2024 mar_2024 "all" false 100)
      <> OutOfFuel.
Proof. intros [fuel H]. apply H. apply stuck_feed_loops. Qed.

(** C8.  Whenever a request of a run is answered by a page without entries,
    that request is the last one and the run ends normally, as exhausted: no
    further request is sent and nothing is raised, whatever the earlier
    pages held. *)
Theorem empty_page_halts (fuel : nat) (get : feed) (app : Z)
    (start_dt end_dt : datetime) (lang : string) (include_offtopic : bool)
    (per_page : Z) (i : nat) (p : params) (cursor : option string) :
  let r := fetch_reviews fuel get app start_dt end_dt lang include_offtopic per_page in
  nth_error (requested r) i = Some p ->
  get app p = Json [] cursor ->
  ended r = Exhausted /\ List.length (requested r) = S i.
Proof.
  intros r Hi Hp.
  destruct (halting_request_is_last fuel get app _ _ _ i p Hi) as [Hl He].
  - now rewrite Hp.
  - rewrite Hp in He. now split.
Qed.

(** On [short_feed] the first page has a row inside the window; the empty
    second page ends the run. *)
Lemma empty_page_halts_witness :
  let r := fetch_reviews 5 short_feed 367520 jan_2024 mar_2024 "all" false 100 in
  ended r = Exhausted /\ List.length (requested r) = 2%nat.
Proof.
  apply (empty_page_halts 5 short_feed 367520 jan_2024 mar_2024 "all" false 100
           1 (advance first_request (Some "c1")) None); reflexivity.
Defined.

(** C10.  Whenever a request of a run is answered by a non-empty page whose
    last entry has no creation timestamp, and the window starts after the
    epoch, that request is the last one: the missing timestamp counts as 0
    in the check of line 72, and the run ends there, normally, whatever the
    following pages hold. *)
Theorem missing_timestamp_truncates (fuel : nat) (get : feed) (app : Z)
    (start_dt end_dt : datetime) (lang : string) (include_offtopic : bool)
    (per_page : Z) (i : nat) (p : params) (rv : raw_review)
    (rvs : list raw_review) (cursor : option string) :
  let r := fetch_reviews fuel get app start_dt end_dt lang include_offtopic per_page in
  nth_error (requested r) i = Some p ->
  get app p = Json (rv :: rvs) cursor ->
  rv_timestamp_created (last rvs rv) = None ->
  0 < timestamp_utc start_dt ->
  ended r = BelowWindow /\ List.length (requested r) = S i.
Proof.
  intros r Hi Hp Hts Hstart.
  destruct (halting_request_is_last fuel get app _ _ _ i p Hi) as [Hl He].
  - rewrite Hp. cbn [halting]. unfold oldest_ts_in_batch, ts_of. rewrite Hts.
    now apply Z.ltb_lt.
  - rewrite Hp in He. now split.
Qed.

(** On [gap_feed] the run stops after the first page. *)
Lemma missing_timestamp_truncates_witness :
  let r := fetch_reviews 5 gap_feed 367520 jan_2024 mar_2024 "all" false 100 in
  ended r = BelowWindow /\ List.length (requested r) = 1%nat.
Proof.
  apply (missing_timestamp_truncates 5 gap_feed 367520 jan_2024 mar_2024 "all" false 100
           0 first_request (entry (Some 1709000000) true 1) [entry None true 0]
           (Some "c1")); reflexivity.
Defined.

(** The entry of the second page of [gap_feed] lies in the window and is
    never yielded. *)
Example gap_feed_loses_a_row :
  let r := fetch_reviews 5 gap_feed 367520 jan_2024 mar_2024 "all" false 100 in
  map timestamp_created (yielded r) = [1709000000]
  /\ fst (walk 5 gap_feed 367520 first_request)
     = [[entry (Some 1709000000) true 1; entry None true 0];
        [entry (Some 1708000000) true 4]]
  /\ in_window (timestamp_utc jan_2024) (timestamp_utc mar_2024)
       (entry (Some 1708000000) true 4) = true.
Proof. repeat split. Qed.

(** ** Monthly buckets *)

Lemma insert_key_in (k x : month) (ks : list month) :
  In x (insert_key k ks) <-> x = k \/ In x ks.
Proof.
  induction ks as [|h t IH]; simpl.
  - intuition.
  - destruct (k <? h) eqn:Hlt; [simpl; intuition|].
    destruct (k =? h) eqn:Heq.
    + apply Z.eqb_eq in Heq. subst h. simpl. intuition.
    + simpl. rewrite IH. intuition.
Qed.

Lemma insert_key_sorted (k : month) (ks : list month) :
  StronglySorted Z.lt ks -> StronglySorted Z.lt (insert_key k ks).
Proof.
  induction 1 as [|h t Hs IH Hh]; simpl.
  - repeat constructor.
  - destruct (k <? h) eqn:Hlt.
    + apply Z.ltb_lt in Hlt. constructor; [now constructor|].
      constructor; [exact Hlt|].
      rewrite Forall_forall in *. intros x Hx. specialize (Hh x Hx). lia.
    + destruct (k =? h) eqn:Heq; [now constructor|].
      apply Z.ltb_ge in Hlt. apply Z.eqb_neq in Heq.
      constructor; [exact IH|].
      rewrite Forall_forall in *. intros x Hx.
      apply insert_key_in in Hx. destruct Hx as [->|Hx]; [lia | now apply Hh].
Qed.

Lemma group_keys_in (df : frame) (m : month) :
  In m (group_keys df) <-> In m (map month_of df).
Proof.
  unfold group_keys. induction df as [|r df IH]; simpl; [tauto|].
  rewrite insert_key_in, IH. intuition.
Qed.

Lemma group_keys_sorted (df : frame) : StronglySorted Z.lt (group_keys df).
Proof.
  unfold group_keys. induction df as [|r df IH]; simpl.
  - constructor.
  - now apply insert_key_sorted.
Qed.

Lemma group_of_in (m : month) (df : frame) (r : review) :
  In r (group_of m df) <-> In r df /\ month_of r = m.
Proof. unfold group_of. now rewrite filter_In, Z.eqb_eq. Qed.

Lemma group_of_nonempty (m : month) (df : frame) :
  In m (group_keys df) -> group_of m df <> [].
Proof.
  rewrite group_keys_in, in_map_iff. intros (r & Hm & Hr) E.
  assert (H : In r (group_of m df)) by now apply group_of_in.
  now rewrite E in H.
Qed.

(** Filtering by month leaves a frame of that month alone, and empties a
    frame of another month. *)
Lemma group_of_same (m : month) (g : frame) :
  (forall r, In r g -> month_of r = m) -> group_of m g = g.
Proof.
  intros H. unfold group_of. induction g as [|r g IH]; [reflexivity|].
  simpl. rewrite (H r) by now left. rewrite Z.eqb_refl. f_equal.
  apply IH. intros x Hx. apply H. now right.
Qed.

Lemma group_of_other (m : month) (g : frame) :
  (forall r, In r g -> month_of r <> m) -> group_of m g = [].
Proof.
  intros H. unfold group_of. induction g as [|r g IH]; [reflexivity|].
  simpl. destruct (month_of r =? m) eqn:E.
  - apply Z.eqb_eq in E. exfalso. now apply (H r); [left|].
  - apply IH. intros x Hx. apply H. now right.
Qed.

Lemma group_of_app (m : month) (l1 l2 : frame) :
  group_of m (l1 ++ l2) = group_of m l1 ++ group_of m l2.
Proof. apply filter_app. Qed.

(** ** The monthly aggregator *)








Example monthly_summary_example :
  monthly_summary (february ++ january)
  = Ok [ {| s_month := 648; total_reviews := 1; positive := 1; negative := 0;
            pos_share := 1000 # 1000 |};
         {| s_month := 649; total_reviews := 3; positive := 2; negative := 1;
            pos_share := 667 # 1000 |} ].
Proof. reflexivity. Qed.

(** ** The monthly sampler: top-helpful mode *)

Section StableSort.
Variable leb : review -> review -> bool.
Hypothesis leb_total : forall a b, leb a b = false -> leb b a = true.
Hypothesis leb_trans :
  forall a b c, leb a b = true -> leb b c = true -> leb a c = true.








(** Sorting a sub-frame: inside a class [q] on which [leb] agrees with
    [leb'], filtering the sorted frame is sorting the filtered one. *)
Variable leb' : review -> review -> bool.
Variable q : review -> bool.
Hypothesis agree :
  forall a b, q a = true -> q b = true -> leb a b = leb' a b.



End StableSort.










Example top_helpful_example :
  monthly_sample lcg_env (february ++ january) 2 42 true
  = [row 1705000000 true 1; row 1708000000 false 7; row 1709000000 true 7].
Proof. reflexivity. Qed.

(** ** The monthly sampler: random mode *)





(** *** Which draw a month gets *)

Lemma firstn_in (A : Type) (n : nat) (l : list A) (x : A) :
  In x (firstn n l) -> In x l.
Proof.
  intros H. rewrite <- (firstn_skipn n l). apply in_or_app. now left.
Qed.

Lemma skipn_in (A : Type) (n : nat) (l : list A) (x : A) :
  In x (skipn n l) -> In x l.
Proof.
  intros H. rewrite <- (firstn_skipn n l). apply in_or_app. now right.
Qed.

Lemma filter_none (A : Type) (f : A -> bool) (l : list A) :
  (forall x, In x l -> f x = false) -> filter f l = [].
Proof.
  intros H. induction l as [|x l IH]; [reflexivity|].
  simpl. rewrite (H x) by now left. apply IH. intros y Hy. apply H. now right.
Qed.

Lemma lcg_env_samples_within : samples_within lcg_env.
Proof.
  intros n s g r H. cbn in H. unfold rotate_sample in H.
  apply firstn_in in H. apply in_app_or in H.
  destruct H as [H|H]; [now apply skipn_in in H | now apply firstn_in in H].
Qed.

(** The rows sampled for month [m], read off the output of the loop over the
    groups: the sample of the month's group, drawn with the draw whose rank
    is the number of keys before [m]. *)
Lemma sample_groups_of_month (E : Env) (df : frame) (n : nat) (m : month) :
  samples_within E ->
  forall (ks : list month) (st : rng E),
    StronglySorted Z.lt ks ->
    (forall k, In k ks -> group_of k df <> []) ->
    group_of m (List.concat (sample_groups E st n
                               (map (fun k => (k, group_of k df)) ks)))
    = if in_dec Z.eq_dec m ks then
        sample E (Nat.min n (List.length (group_of m df)))
               (nth_draw E (List.length (filter (fun k => k <? m) ks)) st)
               (group_of m df)
      else [].
Proof.
  intros Hwithin ks. induction ks as [|k ks IH]; intros st Hsorted Hne.
  - reflexivity.
  - apply StronglySorted_inv in Hsorted. destruct Hsorted as [Hs Hk].
    rewrite Forall_forall in Hk.
    assert (Hne' : forall k', In k' ks -> group_of k' df <> [])
      by (intros k' Hk'; apply Hne; now right).
    cbn [map sample_groups].
    destruct (group_of k df) as [|r g] eqn:Hg; [now elim (Hne k); [left|]|].
    rewrite <- Hg.
    destruct (randint E 0 (10 ^ 9) st) as [d st'] eqn:Hd.
    cbn [List.concat]. rewrite group_of_app, (IH st' Hs Hne').
    assert (Hrows : forall x,
               In x (sample E (Nat.min n (List.length (group_of k df))) d (group_of k df)) ->
               month_of x = k).
    { intros x Hx. apply Hwithin in Hx. now apply group_of_in in Hx. }
    destruct (Z.eq_dec k m) as [->|Hkm].
    + (* the group of [m] itself *)
      rewrite (group_of_same m _ Hrows).
      destruct (in_dec Z.eq_dec m ks) as [Hin|_].
      { specialize (Hk m Hin). lia. }
      destruct (in_dec Z.eq_dec m (m :: ks)) as [_|Hout]; [|elim Hout; now left].
      cbn [filter]. rewrite Z.ltb_irrefl.
      replace (filter (fun k => k <? m) ks) with (@nil month).
      * cbn [List.length nth_draw]. rewrite Hd. cbn [fst]. apply app_nil_r.
      * symmetry. apply filter_none. intros x Hx. specialize (Hk x Hx).
        apply Z.ltb_ge. lia.
    + (* another group *)
      rewrite (group_of_other m).
      2:{ intros x Hx. rewrite (Hrows x Hx). exact Hkm. }
      cbn [app].
      destruct (in_dec Z.eq_dec m ks) as [Hin|Hout].
      * destruct (in_dec Z.eq_dec m (k :: ks)) as [_|Hout]; [|elim Hout; now right].
        cbn [filter]. specialize (Hk m Hin).
        replace (k <? m) with true by (symmetry; apply Z.ltb_lt; lia).
        cbn [List.length nth_draw]. rewrite Hd. reflexivity.
      * destruct (in_dec Z.eq_dec m (k :: ks)) as [[Hin|Hin]|_];
          [contradiction | contradiction | reflexivity].
Qed.

Lemma group_keys_iff_nonempty (m : month) (df : frame) :
  In m (group_keys df) <-> group_of m df <> [].
Proof.
  split; [apply group_of_nonempty|].
  intros H. destruct (group_of m df) as [|r g] eqn:E; [contradiction|].
  assert (Hr : In r (group_of m df)) by (rewrite E; now left).
  apply group_of_in in Hr. destruct Hr as [Hr <-].
  apply group_keys_in. now apply in_map.
Qed.

(** In random mode the rows sampled for a month are the sample of that
    month's group under the draw whose rank is the number of distinct months
    before it. *)
Lemma month_sample_by_rank (E : Env) (df : frame) (n : nat) (seed : Z) (m : month) :
  samples_within E ->
  group_of m (monthly_sample E df n seed false)
  = if in_dec Z.eq_dec m (group_keys df) then
      sample E (Nat.min n (List.length (group_of m df)))
             (nth_draw E (months_before m df) (Random E seed))
             (group_of m df)
    else [].
Proof.
  intros Hwithin. unfold monthly_sample, groupby, months_before.
  apply sample_groups_of_month.
  - exact Hwithin.
  - apply group_keys_sorted.
  - intros k. apply group_of_nonempty.
Qed.

(** C5, as the code has it.  In random mode the sub-seed of a month is the
    draw of the seeded generator whose rank is the number of distinct months
    before that month in the frame.  So two frames that agree on the rows of
    month [m] and have the same number of distinct months before [m] (as
    when the data of a later month is inserted or removed) get the same
    sample for [m] from the same seed. *)
Theorem month_sample_same_rank (E : Env) (df1 df2 : frame) (n : nat)
    (seed : Z) (m : month) :
  samples_within E ->
  group_of m df1 = group_of m df2 ->
  months_before m df1 = months_before m df2 ->
  group_of m (monthly_sample E df1 n seed false)
  = group_of m (monthly_sample E df2 n seed false).
Proof.
  intros Hwithin Hrows Hrank.
  rewrite !month_sample_by_rank by exact Hwithin.
  rewrite Hrows, Hrank.
  destruct (in_dec Z.eq_dec m (group_keys df1)) as [H1|H1],
           (in_dec Z.eq_dec m (group_keys df2)) as [H2|H2];
    try reflexivity; exfalso.
  - apply H2. apply group_keys_iff_nonempty. rewrite <- Hrows.
    now apply group_keys_iff_nonempty.
  - apply H1. apply group_keys_iff_nonempty. rewrite Hrows.
    now apply group_keys_iff_nonempty.
Qed.

(** February keeps its sample when March is added. *)
Lemma month_sample_same_rank_witness :
  group_of 649 (monthly_sample lcg_env february 1 42 false)
  = group_of 649 (monthly_sample lcg_env (february ++ march) 1 42 false).
Proof.
  apply (month_sample_same_rank lcg_env february (february ++ march) 1 42 649).
  - exact lcg_env_samples_within.
  - reflexivity.
  - reflexivity.
Defined.

(** C5, as it is worded, fails: adding the data of January, a month before
    February, leaves February's rows as they are and changes February's
    sample, because February now gets the second draw instead of the
    first. *)
Lemma earlier_month_shifts_draw :
  group_of 649 february = group_of 649 (january ++ february)
  /\ months_before 649 february = 0%nat
  /\ months_before 649 (january ++ february) = 1%nat
  /\ group_of 649 (monthly_sample lcg_env february 1 42 false)
     = [row 1708000000 false 7]
  /\ group_of 649 (monthly_sample lcg_env (january ++ february) 1 42 false)
     = [row 1707000000 true 2]
  /\ group_of 649 (monthly_sample lcg_env february 1 42 false)
     <> group_of 649 (monthly_sample lcg_env (january ++ february) 1 42 false).
Proof.
  repeat split; try reflexivity.
  vm_compute. discriminate.
Qed.

(* ================================================================== *)
(** * Part III: further properties of the code *)
(* ================================================================== *)

(** ** Runs of the fetcher *)

Lemma fetch_loop_yielded (fuel : nat) (get : feed) (app s e : Z) :
  forall prm,
    yielded (fetch_loop fuel get app s e prm)
    = flat_map (page_rows get app s e) (requested (fetch_loop fuel get app s e prm)).
Proof.
  induction fuel as [|fuel IH]; intros prm; [reflexivity|].
  cbn [fetch_loop]. unfold page_rows at 1.
  destruct (get app prm) as [|[|rv rvs] cursor] eqn:G;
    cbn [yielded requested flat_map]; unfold page_rows; rewrite ?G; try reflexivity.
  destruct (oldest_ts_in_batch rv rvs <? s); cbn [yielded requested flat_map];
    rewrite ?G.
  - now rewrite app_nil_r.
  - rewrite IH. reflexivity.
Qed.

(** The rows of a run are the rows of the pages it requested, page after
    page, each page filtered by the window: nothing else is yielded, and
    nothing inside the window on a requested page is dropped. *)
Theorem yielded_from_requested (fuel : nat) (get : feed) (app : Z)
    (start_dt end_dt : datetime) (lang : string) (include_offtopic : bool)
    (per_page : Z) :
  let r := fetch_reviews fuel get app start_dt end_dt lang include_offtopic per_page in
  yielded r
  = flat_map (page_rows get app (timestamp_utc start_dt) (timestamp_utc end_dt))
             (requested r).
Proof. apply fetch_loop_yielded. Qed.

Lemma nth_params_step (k : nat) (get : feed) (app : Z) (prm : params) :
  nth_params (S k) get app prm = nth_params k get app (next_params get app prm).
Proof. reflexivity. Qed.

Lemma nth_params_succ (k : nat) (get : feed) (app : Z) :
  forall prm,
    nth_params (S k) get app prm = next_params get app (nth_params k get app prm).
Proof.
  induction k as [|k IH]; intros prm; [reflexivity|].
  rewrite nth_params_step, IH. reflexivity.
Qed.

Lemma fetch_loop_requested (fuel : nat) (get : feed) (app s e : Z) :
  forall prm i p,
    nth_error (requested (fetch_loop fuel get app s e prm)) i = Some p ->
    p = nth_params i get app prm.
Proof.
  induction fuel as [|fuel IH]; intros prm i p Hi.
  - destruct i; discriminate.
  - cbn [fetch_loop] in Hi.
    destruct (get app prm) as [|[|rv rvs] cursor] eqn:G; cbn [requested] in Hi.
    + destruct i as [|[|j]]; try discriminate. now injection Hi as <-.
    + destruct i as [|[|j]]; try discriminate. now injection Hi as <-.
    + destruct (oldest_ts_in_batch rv rvs <? s); cbn [requested] in Hi.
      * destruct i as [|[|j]]; try discriminate. now injection Hi as <-.
      * destruct i as [|j]; [now injection Hi as <-|].
        cbn [nth_error] in Hi. rewrite nth_params_step.
        unfold next_params. rewrite G. now apply IH.
Qed.

(** The requests of a run follow the cursors: the first one carries the
    parameters of lines 26-35, and each later one carries the cursor of the
    previous answer (or the previous cursor again, when the answer had
    none). *)
Theorem requested_follow_cursors (fuel : nat) (get : feed) (app : Z)
    (start_dt end_dt : datetime) (lang : string) (include_offtopic : bool)
    (per_page : Z) (i : nat) (p : params) :
  let r := fetch_reviews fuel get app start_dt end_dt lang include_offtopic per_page in
  nth_error (requested r) i = Some p ->
  p = nth_params i get app (initial_params lang include_offtopic per_page)
  /\ (i = O -> p_cursor p = "*")
  /\ (forall q reviews cursor,
        nth_error (requested r) (S i) = Some q ->
        get app p = Json reviews cursor ->
        p_cursor q = match cursor with Some c => c | None => p_cursor p end).
Proof.
  intros r Hi. pose proof (fetch_loop_requested _ _ _ _ _ _ _ _ Hi) as Hp.
  split; [exact Hp|]. split.
  - intros ->. now rewrite Hp.
  - intros q reviews cursor Hq G.
    apply fetch_loop_requested in Hq.
    rewrite nth_params_succ, <- Hp in Hq. unfold next_params in Hq.
    rewrite G in Hq. now rewrite Hq.
Qed.

Lemma requested_follow_cursors_witness :
  advance first_request (Some "c1")
  = nth_params 1 sorted_feed 367520 (initial_params "all" false 100)
  /\ (1%nat = O -> p_cursor (advance first_request (Some "c1")) = "*")
  /\ (forall q reviews cursor,
        nth_error (requested (fetch_reviews 10 sorted_feed 367520 jan_2024 mar_2024
                                "all" false 100)) 2 = Some q ->
        sorted_feed 367520 (advance first_request (Some "c1")) = Json reviews cursor ->
        p_cursor q = match cursor with
                     | Some c => c
                     | None => p_cursor (advance first_request (Some "c1"))
                     end).
Proof.
  apply (requested_follow_cursors 10 sorted_feed 367520 jan_2024 mar_2024
           "all" false 100 1 (advance first_request (Some "c1"))).
  reflexivity.
Defined.

Lemma nth_params_constant (k : nat) (get : feed) (app : Z) :
  forall prm,
    let p := nth_params k get app prm in
    p_language p = p_language prm
    /\ p_num_per_page p = p_num_per_page prm
    /\ p_filter_offtopic_activity p = p_filter_offtopic_activity prm.
Proof.
  induction k as [|k IH]; intros prm; [now repeat split|].
  cbn [nth_params]. destruct (IH (next_params get app prm)) as (H1 & H2 & H3).
  cbv zeta. rewrite H1, H2, H3. unfold next_params.
  destruct (get app prm); now repeat split.
Qed.

(** Only the cursor changes between the requests of a run: language, page
    size and off-topic flag stay those of the call, and the flag is 1 exactly
    when off-topic activity is to be included. *)
Theorem requested_parameters_constant (fuel : nat) (get : feed) (app : Z)
    (start_dt end_dt : datetime) (lang : string) (include_offtopic : bool)
    (per_page : Z) :
  Forall (fun p => p_language p = lang
                   /\ p_num_per_page p = per_page
                   /\ p_filter_offtopic_activity p
                      = if include_offtopic then 1 else 0)
         (requested (fetch_reviews fuel get app start_dt end_dt lang
                       include_offtopic per_page)).
Proof.
  apply Forall_forall. intros p Hp.
  apply In_nth_error in Hp. destruct Hp as [i Hi].
  apply fetch_loop_requested in Hi. subst p.
  destruct (nth_params_constant i get app (initial_params lang include_offtopic per_page))
    as (H1 & H2 & H3).
  rewrite H1, H2, H3. now destruct include_offtopic.
Qed.

Lemma fetch_loop_end (fuel : nat) (get : feed) (app s e : Z) :
  forall prm,
    ended (fetch_loop fuel get app s e prm) <> OutOfFuel ->
    exists p,
      last_error (requested (fetch_loop fuel get app s e prm)) = Some p
      /\ halting s (get app p) = true
      /\ ended (fetch_loop fuel get app s e prm) = end_of (get app p).
Proof.
  induction fuel as [|fuel IH]; intros prm Hend; [now elim Hend|].
  cbn [fetch_loop] in *.
  destruct (get app prm) as [|[|rv rvs] cursor] eqn:G.
  - exists prm. rewrite G. now repeat split.
  - exists prm. rewrite G. now repeat split.
  - destruct (oldest_ts_in_batch rv rvs <? s) eqn:Hold.
    + exists prm. rewrite G. cbn. now rewrite Hold.
    + cbn [ended requested] in *.
      destruct (IH _ Hend) as (p & Hlast & Hhalt & He).
      exists p. split; [|now split].
      destruct (requested (fetch_loop fuel get app s e (advance prm cursor)))
        as [|q qs]; [discriminate|].
      cbn [last_error] in *. injection Hlast as <-.
      cbn [last]. f_equal. destruct qs; [reflexivity|]. now rewrite !last_cons.
Qed.

(** A run that ended has sent at least one request, and how it ended can be
    read off the answer to the last one: [Failed] after a failed request,
    [Exhausted] after an empty page, [BelowWindow] after a non-empty page
    whose last entry is older than the window's start. *)
Theorem run_end_classified (fuel : nat) (get : feed) (app : Z)
    (start_dt end_dt : datetime) (lang : string) (include_offtopic : bool)
    (per_page : Z) :
  let r := fetch_reviews fuel get app start_dt end_dt lang include_offtopic per_page in
  ended r <> OutOfFuel ->
  exists p,
    last_error (requested r) = Some p
    /\ match get app p with
       | HttpFailure => ended r = Failed
       | Json [] _ => ended r = Exhausted
       | Json (rv :: rvs) _ =>
           ended r = BelowWindow /\ ts_of (last rvs rv) < timestamp_utc start_dt
       end.
Proof.
  intros r Hend. destruct (fetch_loop_end _ _ _ _ _ _ Hend) as (p & Hlast & Hhalt & He).
  exists p. split; [exact Hlast|]. fold r in He.
  destruct (get app p) as [|[|rv rvs] cursor]; cbn in *; try exact He.
  split; [exact He | now apply Z.ltb_lt].
Qed.

Lemma run_end_classified_witness :
  exists p,
    last_error (requested (fetch_reviews 10 sorted_feed 367520 jan_2024 mar_2024
                             "all" false 100)) = Some p
    /\ match sorted_feed 367520 p with
       | HttpFailure =>
           ended (fetch_reviews 10 sorted_feed 367520 jan_2024 mar_2024
                    "all" false 100) = Failed
       | Json [] _ =>
           ended (fetch_reviews 10 sorted_feed 367520 jan_2024 mar_2024
                    "all" false 100) = Exhausted
       | Json (rv :: rvs) _ =>
           ended (fetch_reviews 10 sorted_feed 367520 jan_2024 mar_2024
                    "all" false 100) = BelowWindow
           /\ ts_of (last rvs rv) < timestamp_utc jan_2024
       end.
Proof.
  apply (run_end_classified 10 sorted_feed 367520 jan_2024 mar_2024 "all" false 100).
  discriminate.
Defined.

(** A failed request ends the run at once, as failed: the exception of
    [raise_for_status] is not caught, and no further request is sent. *)
Theorem http_failure_aborts (fuel : nat) (get : feed) (app : Z)
    (start_dt end_dt : datetime) (lang : string) (include_offtopic : bool)
    (per_page : Z) (i : nat) (p : params) :
  let r := fetch_reviews fuel get app start_dt end_dt lang include_offtopic per_page in
  nth_error (requested r) i = Some p ->
  get app p = HttpFailure ->
  ended r = Failed /\ List.length (requested r) = S i.
Proof.
  intros r Hi Hp.
  destruct (halting_request_is_last fuel get app _ _ _ i p Hi) as [Hl He].
  - now rewrite Hp.
  - rewrite Hp in He. now split.
Qed.

(** Every request but the last one was answered by a non-empty page whose
    last entry is not older than the window's start. *)
Theorem earlier_requests_continue (fuel : nat) (get : feed) (app : Z)
    (start_dt end_dt : datetime) (lang : string) (include_offtopic : bool)
    (per_page : Z) (i : nat) (p : params) :
  let r := fetch_reviews fuel get app start_dt end_dt lang include_offtopic per_page in
  nth_error (requested r) i = Some p ->
  (S i < List.length (requested r))%nat ->
  exists rv rvs cursor,
    get app p = Json (rv :: rvs) cursor
    /\ timestamp_utc start_dt <= ts_of (last rvs rv).
Proof.
  intros r Hi Hlen.
  destruct (halting (timestamp_utc start_dt) (get app p)) eqn:Hhalt.
  - destruct (halting_request_is_last fuel get app _ _ _ i p Hi Hhalt) as [Hl _].
    unfold r, fetch_reviews in Hlen. lia.
  - destruct (get app p) as [|[|rv rvs] cursor]; try discriminate.
    exists rv, rvs, cursor. split; [reflexivity|].
    cbn in Hhalt. now apply Z.ltb_ge.
Qed.

Lemma earlier_requests_continue_witness :
  exists rv rvs cursor,
    sorted_feed 367520 first_request = Json (rv :: rvs) cursor
    /\ timestamp_utc jan_2024 <= ts_of (last rvs rv).
Proof.
  apply (earlier_requests_continue 10 sorted_feed 367520 jan_2024 mar_2024
           "all" false 100 0 first_request).
  - reflexivity.
  - vm_compute. repeat constructor.
Defined.

Lemma http_failure_aborts_witness :
  ended (fetch_reviews 5 failing_feed 367520 jan_2024 mar_2024 "all" false 100) = Failed
  /\ List.length (requested (fetch_reviews 5 failing_feed 367520 jan_2024 mar_2024
                               "all" false 100)) = 2%nat.
Proof.
  apply (http_failure_aborts 5 failing_feed 367520 jan_2024 mar_2024 "all" false 100
           1 (advance first_request (Some "c1"))); reflexivity.
Defined.

Lemma fetch_loop_fuel (fuel : nat) (get : feed) (app s e : Z) :
  forall prm fuel',
    ended (fetch_loop fuel get app s e prm) <> OutOfFuel ->
    (fuel <= fuel')%nat ->
    fetch_loop fuel' get app s e prm = fetch_loop fuel get app s e prm.
Proof.
  induction fuel as [|fuel IH]; intros prm fuel' Hend Hle; [now elim Hend|].
  destruct fuel' as [|fuel']; [lia|].
  cbn [fetch_loop] in *.
  destruct (get app prm) as [|[|rv rvs] cursor]; try reflexivity.
  destruct (oldest_ts_in_batch rv rvs <? s); [reflexivity|].
  cbn [ended] in Hend. rewrite (IH _ fuel' Hend) by lia. reflexivity.
Qed.

(** A run that ended within its allotted requests is the run: allowing more
    requests changes neither the rows, nor the requests, nor the way it
    ended. *)
Theorem ended_run_is_final (fuel fuel' : nat) (get : feed) (app : Z)
    (start_dt end_dt : datetime) (lang : string) (include_offtopic : bool)
    (per_page : Z) :
  ended (fetch_reviews fuel get app start_dt end_dt lang include_offtopic per_page)
  <> OutOfFuel ->
  (fuel <= fuel')%nat ->
  fetch_reviews fuel' get app start_dt end_dt lang include_offtopic per_page
  = fetch_reviews fuel get app start_dt end_dt lang include_offtopic per_page.
Proof. intros Hend Hle. now apply fetch_loop_fuel. Qed.

Lemma ended_run_is_final_witness :
  fetch_reviews 50 sorted_feed 367520 jan_2024 mar_2024 "all" false 100
  = fetch_reviews 3 sorted_feed 367520 jan_2024 mar_2024 "all" false 100.
Proof.
  apply (ended_run_is_final 3 50 sorted_feed 367520 jan_2024 mar_2024 "all" false 100).
  - discriminate.
  - lia.
Defined.

Lemma flat_map_concat_map_nil (A B : Type) (f : A -> list B) (l : list A) :
  (forall a, f a = []) -> flat_map f l = [].
Proof.
  intros H. induction l as [|a l IH]; [reflexivity|].
  simpl. now rewrite H, IH.
Qed.

Lemma page_yield_empty_window (app s e : Z) (rs : list raw_review) :
  e <= s -> page_yield app s e rs = [].
Proof.
  intros Hes. unfold page_yield. rewrite filter_none; [reflexivity|].
  intros rv _. unfold in_window.
  destruct (s <=? ts_of rv) eqn:H1; [|reflexivity].
  apply Z.leb_le in H1. apply Z.ltb_ge. lia.
Qed.

(** A window that ends no later than it starts yields no row, whatever the
    feed holds. *)
Theorem empty_window_yields_nothing (fuel : nat) (get : feed) (app : Z)
    (start_dt end_dt : datetime) (lang : string) (include_offtopic : bool)
    (per_page : Z) :
  timestamp_utc end_dt <= timestamp_utc start_dt ->
  yielded (fetch_reviews fuel get app start_dt end_dt lang include_offtopic per_page)
  = [].
Proof.
  intros Hes. unfold fetch_reviews. rewrite fetch_loop_yielded.
  apply flat_map_concat_map_nil.
  intros p. unfold page_rows. destruct (get app p); [reflexivity|].
  now apply page_yield_empty_window.
Qed.

Lemma empty_window_yields_nothing_witness :
  yielded (fetch_reviews 10 sorted_feed 367520 mar_2024 jan_2024 "all" false 100) = [].
Proof.
  apply (empty_window_yields_nothing 10 sorted_feed 367520 mar_2024 jan_2024
           "all" false 100).
  vm_compute. discriminate.
Defined.

Lemma strongly_sorted_prefix (A : Type) (R : A -> A -> Prop) (l1 l2 : list A) :
  StronglySorted R (l1 ++ l2) -> StronglySorted R l1.
Proof.
  induction l1 as [|x l1 IH]; simpl; intros H; [constructor|].
  apply StronglySorted_inv in H. destruct H as [Hs Hx].
  constructor; [now apply IH|].
  rewrite Forall_forall in *. intros y Hy. apply Hx. apply in_or_app. now left.
Qed.

Lemma page_yield_sorted (app s e : Z) (l : list raw_review) :
  StronglySorted not_older l -> rows_newest_first (page_yield app s e l).
Proof.
  unfold rows_newest_first, page_yield.
  induction 1 as [|rv l Hs IH Hrv]; simpl; [constructor|].
  destruct (in_window s e rv); [|exact IH].
  simpl. constructor; [exact IH|].
  apply Forall_forall. intros r Hr. apply in_map_iff in Hr.
  destruct Hr as (rv' & <- & Hrv'). apply filter_In in Hrv'.
  rewrite Forall_forall in Hrv. apply (Hrv rv'). tauto.
Qed.

(** The rows of a run are the first rows of what the pages on the path of
    the cursors hold for the window. *)
Lemma fetch_loop_prefix (fuel : nat) (get : feed) (app s e : Z) :
  forall prm, exists rest,
    page_yield app s e (List.concat (fst (walk fuel get app prm)))
    = yielded (fetch_loop fuel get app s e prm) ++ rest.
Proof.
  induction fuel as [|fuel IH]; intros prm; [now exists []|].
  cbn [walk fetch_loop].
  destruct (get app prm) as [|[|rv rvs] cursor]; cbn [fst List.concat yielded];
    try (now exists []).
  rewrite page_yield_app.
  destruct (oldest_ts_in_batch rv rvs <? s); cbn [yielded].
  - eexists. reflexivity.
  - destruct (IH (advance prm cursor)) as [rest Hrest].
    exists rest. now rewrite Hrest, app_assoc.
Qed.

(** When the pages on the path of the cursors are ordered newest first, so
    are the rows of the run: the output keeps the order of the feed. *)
Theorem yielded_newest_first (fuel : nat) (get : feed) (app : Z)
    (start_dt end_dt : datetime) (lang : string) (include_offtopic : bool)
    (per_page : Z) :
  newest_first
    (List.concat (fst (walk fuel get app (initial_params lang include_offtopic per_page)))) ->
  rows_newest_first
    (yielded (fetch_reviews fuel get app start_dt end_dt lang include_offtopic per_page)).
Proof.
  intros Hsorted. apply newest_first_strong in Hsorted.
  apply (page_yield_sorted app (timestamp_utc start_dt) (timestamp_utc end_dt)) in Hsorted.
  destruct (fetch_loop_prefix fuel get app (timestamp_utc start_dt)
              (timestamp_utc end_dt) (initial_params lang include_offtopic per_page))
    as [rest Hrest].
  unfold rows_newest_first in *. rewrite Hrest in Hsorted.
  now apply strongly_sorted_prefix in Hsorted.
Qed.

Lemma yielded_newest_first_witness :
  rows_newest_first
    (yielded (fetch_reviews 10 sorted_feed 367520 jan_2024 mar_2024 "all" false 100)).
Proof.
  apply (yielded_newest_first 10 sorted_feed 367520 jan_2024 mar_2024 "all" false 100).
  vm_compute List.concat.
  repeat (constructor; try (unfold not_older, ts_of; simpl; lia)).
Defined.

Lemma walk_requests (n : nat) (get : feed) (app s e : Z) :
  forall prm,
    snd (walk n get app prm) <> Unfinished ->
    ended (fetch_loop n get app s e prm) <> OutOfFuel
    /\ (List.length (requested (fetch_loop n get app s e prm))
        <= S (List.length (fst (walk n get app prm))))%nat.
Proof.
  induction n as [|n IH]; intros prm Hw; [now elim Hw|].
  cbn [walk fetch_loop] in *.
  destruct (get app prm) as [|[|rv rvs] cursor]; cbn [fst snd] in *;
    try (cbn; split; [discriminate | lia]).
  destruct (oldest_ts_in_batch rv rvs <? s);
    try (cbn; split; [discriminate | lia]).
  destruct (IH _ Hw) as [He Hl]. cbn [ended requested List.length]. split; [exact He | lia].
Qed.

(** On a feed that comes to an end (an empty page or a failed request after
    finitely many non-empty pages), a run ends for every window, after at
    most one request per non-empty page and one more. *)
Theorem finite_feed_terminates (n : nat) (get : feed) (app : Z)
    (start_dt end_dt : datetime) (lang : string) (include_offtopic : bool)
    (per_page : Z) :
  let prm := initial_params lang include_offtopic per_page in
  snd (walk n get app prm) <> Unfinished ->
  let r := fetch_reviews n get app start_dt end_dt lang include_offtopic per_page in
  ended r <> OutOfFuel
  /\ (List.length (requested r) <= S (List.length (fst (walk n get app prm))))%nat.
Proof. intros prm Hw. now apply walk_requests. Qed.

Lemma finite_feed_terminates_witness :
  ended (fetch_reviews 4 sorted_feed 367520 jan_2024 mar_2024 "all" false 100)
  <> OutOfFuel
  /\ (List.length (requested (fetch_reviews 4 sorted_feed 367520 jan_2024 mar_2024
                                "all" false 100))
      <= S (List.length (fst (walk 4 sorted_feed 367520 (initial_params "all" false 100)))))%nat.
Proof.
  apply (finite_feed_terminates 4 sorted_feed 367520 jan_2024 mar_2024 "all" false 100).
  discriminate.
Defined.
